(** * webargs-quart: the Quart request parser of webargs

    A shallow embedding of [quartparser.py].  The module is glue between
    three collaborators that live outside the repository: the web framework
    (quart: request object, [abort], [HTTPException]), the argument library
    (webargs.core: [get_value], [missing], [is_json], the base location map,
    the default validation status) and the JSON decoder (its
    [JSONDecodeError]).  Each collaborator is modelled in a module of its
    own, named after it; module [quartparser] is the source file itself. *)

From stdpp Require Import base option list gmap strings.
From Stdlib Require Import ZArith Ascii String Strings.Byte Lia.

#[local] Set Warnings "-register-all".
#[local] Open Scope string_scope.
#[local] Open Scope Z_scope.

(** ** Python values *)

(** The values that travel through the parser: what a JSON document decodes
    to, what a query or form parameter holds, an uploaded file. *)
Inductive pyval : Type :=
  | PyNone
  | PyBool (b : bool)
  | PyInt (z : Z)
  | PyStr (s : string)
  | PyList (l : list pyval)
  | PyDict (d : gmap string pyval)
  | PyFile (filename : string).

(** The objects a resolver hands to [get_value] and the cache stores: a
    plain value, a multi-valued mapping (query arguments, form, files),
    the case-insensitive multi-valued mapping of the headers, or a
    coroutine that was not awaited.  Multi-valued mappings keep their items
    in order, duplicates included. *)
Inductive pyobj : Type :=
  | Plain (v : pyval)
  | MultiDict (items : list (string * pyval))
  | CIMultiDict (items : list (string * pyval))
  | Coroutine.

(** [x is None] *)
Definition is_None (o : pyobj) : bool :=
  match o with
  | Plain PyNone => true
  | _ => false
  end.

(** ** Strings *)

Module str.

Definition lower_ascii (c : ascii) : ascii :=
  let n := nat_of_ascii c in
  if ((65 <=? n) && (n <=? 90))%nat then ascii_of_nat (n + 32) else c.

Fixpoint lower (s : string) : string :=
  match s with
  | EmptyString => EmptyString
  | String c s' => String (lower_ascii c) (lower s')
  end.

(** [c in s] *)
Fixpoint contains (c : ascii) (s : string) : bool :=
  match s with
  | EmptyString => false
  | String c' s' => Ascii.eqb c c' || contains c s'
  end.

(** [s.split(c)[0]] *)
Fixpoint before (c : ascii) (s : string) : string :=
  match s with
  | EmptyString => EmptyString
  | String c' s' => if Ascii.eqb c c' then EmptyString else String c' (before c s')
  end.

Definition is_space (c : ascii) : bool :=
  let n := nat_of_ascii c in
  (((9 <=? n) && (n <=? 13)) || ((28 <=? n) && (n <=? 32))
   || (n =? 133) || (n =? 160))%nat.

Fixpoint lstrip (s : string) : string :=
  match s with
  | EmptyString => EmptyString
  | String c s' => if is_space c then lstrip s' else s
  end.

Fixpoint rstrip (s : string) : string :=
  match s with
  | EmptyString => EmptyString
  | String c s' =>
      match rstrip s' with
      | EmptyString => if is_space c then EmptyString else String c EmptyString
      | t => String c t
      end
  end.

Definition strip (s : string) : string := rstrip (lstrip s).

Definition startswith (s p : string) : bool := String.prefix p s.

Definition endswith (s p : string) : bool :=
  let n := String.length s in
  let k := String.length p in
  ((k <=? n)%nat && String.eqb (String.substring (n - k) k s) p).

End str.

(** ** webargs.core (external) *)

Module core.

(** What a resolver returns: the [missing] sentinel or a raw value. *)
Inductive raw : Type :=
  | missing
  | Found (v : pyval).

(** A field object, as far as argument parsing reads it: whether it
    takes repeated values (a [List] field), whether it is a [Nested]
    field with [many], its [location] metadata, its [required] flag and
    its deserialiser (the error message on the left). *)
Record field : Type := {
  is_multiple : bool;
  nested_many : bool;
  location : option string;
  required : bool;
  deserialize : pyval -> string + pyval
}.

Definition DEFAULT_VALIDATION_STATUS : Z := 422.

(** [Parser.__location_map__] *)
Definition __location_map__ : gmap string string :=
  list_to_map
    [ ("json", "parse_json");
      ("querystring", "parse_querystring");
      ("query", "parse_querystring");
      ("form", "parse_form");
      ("headers", "parse_headers");
      ("cookies", "parse_cookies");
      ("files", "parse_files") ].

(** [get_mimetype]: the part of a content type before its parameters. *)
Definition get_mimetype (content_type : string) : string :=
  str.strip (str.before ";" content_type).

(** [is_json]: [application/json] or [application/*+json]. *)
Definition is_json (mimetype : string) : bool :=
  if String.eqb mimetype "" then false
  else
    let mimetype :=
      if str.contains ";" mimetype then get_mimetype mimetype else mimetype in
    if String.eqb mimetype "application/json" then true
    else str.startswith mimetype "application/" && str.endswith mimetype "+json".

(** [hasattr(data, "get")] *)
Definition has_get (data : pyobj) : bool :=
  match data with
  | Plain (PyDict _) | MultiDict _ | CIMultiDict _ => true
  | Plain _ | Coroutine => false
  end.

(** [hasattr(data, "getlist")] *)
Definition has_getlist (data : pyobj) : bool :=
  match data with
  | MultiDict _ | CIMultiDict _ => true
  | Plain _ | Coroutine => false
  end.

Definition key_eqb (ci : bool) (k name : string) : bool :=
  if ci then String.eqb (str.lower k) (str.lower name) else String.eqb k name.

(** [data.getlist(name)]: every value stored under the key, in order. *)
Definition items_getlist (ci : bool) (items : list (string * pyval))
    (name : string) : list pyval :=
  snd <$> filter (fun kv => key_eqb ci kv.1 name = true) items.

Definition getlist (data : pyobj) (name : string) : list pyval :=
  match data with
  | MultiDict items => items_getlist false items name
  | CIMultiDict items => items_getlist true items name
  | Plain _ | Coroutine => []
  end.

(** [data.get(name)] on an object that has [get]; [None] stands for the
    default being returned.  A multi-valued mapping gives the first value
    of the key. *)
Definition get (data : pyobj) (name : string) : option pyval :=
  match data with
  | Plain (PyDict d) => d !! name
  | Plain _ | Coroutine => None
  | MultiDict _ | CIMultiDict _ => head (getlist data name)
  end.

(** [data] itself when [is_collection(data)]. *)
Definition collection (data : pyobj) : option pyval :=
  match data with
  | Plain (PyList l) => Some (PyList l)
  | _ => None
  end.

(** [get_value(data, name, field, allow_many_nested)] *)
Definition get_value (data : pyobj) (name : string) (field : field)
    (allow_many_nested : bool) : raw :=
  match
    (if allow_many_nested && nested_many field then collection data else None)
  with
  | Some data => Found data
  | None =>
      if negb (has_get data) then missing
      else
        match get data name with
        | None => missing
        | Some val =>
            if is_multiple field then
              if has_getlist data then Found (PyList (getlist data name))
              else
                match val with
                | PyList _ => Found val
                | PyNone => Found PyNone
                | _ => Found (PyList [val])
                end
            else Found val
        end
  end.

End core.

(** ** Exceptions *)

(** A keyword argument of [abort]: a value or the schema object. *)
Inductive kwarg : Type :=
  | KwVal (v : pyval)
  | KwSchema (s : list (string * core.field)).

(** marshmallow's [ValidationError], read through its [messages]. *)
Record validation_error : Type := { messages : pyval }.

Inductive exn : Type :=
  | JSONDecodeError (doc : string)
  | ValidationError (error : validation_error)
  | HTTPException (status_code : Z) (data : gmap string kwarg) (exc : option exn)
  | KeyError (key : string)
  | ValueError (msg : string)
  | TypeError.

(** ** The parser's effects

    A parser method reads and writes the parser's [_cache], awaits
    attributes of the request, and returns or raises.  [awaited] records the
    awaits in the order they happen (latest first); it is bookkeeping for
    the statements about how often a body is decoded and has no counterpart
    in the parser object. *)

Inductive event : Type := AwaitForm | AwaitBody | AwaitJson.

#[local] Instance event_eq_dec : EqDecision event.
Proof. solve_decision. Defined.

Record QuartParser : Type := {
  _cache : gmap string pyobj;
  awaited : list event
}.

Inductive result (A : Type) : Type :=
  | Return (a : A)
  | Raise (e : exn).
Arguments Return {A} a.
Arguments Raise {A} e.

Definition M (A : Type) : Type := QuartParser -> result A * QuartParser.

Definition ret {A} (a : A) : M A := fun self => (Return a, self).

Definition raise {A} (e : exn) : M A := fun self => (Raise e, self).

Definition bind {A B} (m : M A) (k : A -> M B) : M B :=
  fun self =>
    match m self with
    | (Return a, self') => k a self'
    | (Raise e, self') => (Raise e, self')
    end.

(** Run [m] and hand its outcome, returned or raised, to the caller: the
    [try] statement before its [except] clauses are chosen. *)
Definition attempt {A} (m : M A) : M (result A) :=
  fun self => let (r, self') := m self in (Return r, self').

(** [try: m except ...: handler] *)
Definition try_except {A} (m : M A) (handler : exn -> M A) : M A :=
  fun self =>
    match m self with
    | (Return a, self') => (Return a, self')
    | (Raise e, self') => handler e self'
    end.

Notation "'let!' x ':=' m 'in' k" := (bind m (fun x => k))
  (at level 10, x name, m at level 100, k at level 200).
Notation "m ';;' k" := (bind m (fun _ => k))
  (at level 100, k at level 200, right associativity).

(** [self._cache.get(key)]: Python's [None] when the key is not there. *)
Definition cache_get (key : string) : M pyobj :=
  fun self => (Return (default (Plain PyNone) (_cache self !! key)), self).

(** [self._cache[key]] *)
Definition cache_item (key : string) : M pyobj :=
  fun self =>
    match _cache self !! key with
    | Some o => (Return o, self)
    | None => (Raise (KeyError key), self)
    end.

(** [self._cache[key] = o] *)
Definition cache_set (key : string) (o : pyobj) : M unit :=
  fun self =>
    (Return tt, {| _cache := <[key := o]> (_cache self); awaited := awaited self |}).

Definition log (ev : event) : M unit :=
  fun self =>
    (Return tt, {| _cache := _cache self; awaited := ev :: awaited self |}).

(** ** quart (external) *)

Module quart.

(** What [get_json] makes of the body: the decoded document ([None] when
    the mimetype is not a JSON mimetype), or no document, when the decoder
    fails on the body. *)
Inductive json_result : Type :=
  | Decoded (v : pyval)
  | Undecodable.

(** The request attributes the parser reads. *)
Record request : Type := {
  view_args : option (gmap string pyval);
  args : list (string * pyval);
  form : list (string * pyval);
  body : list byte;
  json : json_result;
  headers : list (string * pyval);
  cookies : gmap string pyval;
  files : list (string * pyval);
  mimetype : string
}.

(** [BadRequest()]: the [HTTPException] of status 400, as quart raises it,
    with no [data] and no [exc]. *)
Definition BadRequest : exn := HTTPException 400 ∅ None.

(** [quart.abort(status_code)] raises the [HTTPException] of that status,
    which has no [data] and no [exc] yet.  The exception class of 301
    cannot be built without a redirect path: for 301 the call ends in a
    [TypeError]. *)
Definition abort {A} (status_code : Z) : M A :=
  if status_code =? 301 then raise TypeError
  else raise (HTTPException status_code ∅ None).

(** [await req.form] *)
Definition await_form (req : request) : M pyobj :=
  log AwaitForm;; ret (MultiDict (form req)).

(** [await req.body] *)
Definition await_body (req : request) : M (list byte) :=
  log AwaitBody;; ret (body req).

(** [await req.json]: [get_json] answers a decoder failure with
    [BadRequest]; the decoder's own exception does not leave it. *)
Definition await_json (req : request) : M pyval :=
  log AwaitJson;;
  match json req with
  | Decoded v => ret v
  | Undecodable => raise BadRequest
  end.

(** [req.files], read without [await]: the property is a coroutine, and
    what is read is the coroutine, not the files. *)
Definition files_unawaited (req : request) : pyobj := Coroutine.

End quart.

(** ** quartparser.py *)

Module quartparser.
Import core quart.

(** [abort(http_status_code, exc=None, **kwargs)]: raise the
    [HTTPException] of the status with the keyword arguments attached as
    [data] and the exception as [exc]. *)
Definition abort {A} (http_status_code : Z) (exc : option exn)
    (kwargs : gmap string kwarg) : M A :=
  try_except (quart.abort http_status_code)
    (fun err =>
       match err with
       | HTTPException status_code _ _ =>
           raise (HTTPException status_code kwargs exc)
       | _ => raise err
       end).

Definition is_json_request (req : request) : bool :=
  core.is_json (mimetype req).

(** [__location_map__ = dict(view_args="parse_view_args",
    **core.Parser.__location_map__)] *)
Definition __location_map__ : gmap string string :=
  <["view_args" := "parse_view_args"]> core.__location_map__.

(** [req.view_args] as an object: a dict, or [None] before routing. *)
Definition view_args_obj (req : request) : pyobj :=
  match view_args req with
  | Some d => Plain (PyDict d)
  | None => Plain PyNone
  end.

Definition parse_view_args (req : request) (name : string) (field : field)
    : M raw :=
  ret (get_value (view_args_obj req) name field false).

Definition parse_form (req : request) (name : string) (field : field)
    : M raw :=
  let! post_data := cache_get "post" in
  (if is_None post_data then
     let! form := await_form req in
     cache_set "post" form
   else ret tt);;
  let! post := cache_item "post" in
  ret (get_value post name field false).

Definition handle_invalid_json_error {A} (error : exn) (req : request) : M A :=
  abort 400 (Some error)
    {[ "messages" :=
         KwVal (PyDict {[ "json" := PyList [PyStr "Invalid JSON body."] ]}) ]}.

Definition parse_json (req : request) (name : string) (field : field)
    : M raw :=
  let! body := await_body req in
  if negb (negb (bool_decide (body = [])) && is_json_request req) then
    ret missing
  else
    let! json_data := cache_get "json" in
    if is_None json_data then
      let! outcome := attempt (await_json req) in
      match outcome with
      | Raise (JSONDecodeError doc as e) =>
          if String.eqb doc "" then ret missing
          else handle_invalid_json_error e req
      | Raise e => raise e
      | Return json_data =>
          cache_set "json" (Plain json_data);;
          ret (get_value (Plain json_data) name field true)
      end
    else ret (get_value json_data name field true).

Definition parse_querystring (req : request) (name : string) (field : field)
    : M raw :=
  ret (get_value (MultiDict (args req)) name field false).

Definition parse_headers (req : request) (name : string) (field : field)
    : M raw :=
  ret (get_value (CIMultiDict (headers req)) name field false).

Definition parse_cookies (req : request) (name : string) (field : field)
    : M raw :=
  ret (get_value (Plain (PyDict (cookies req))) name field false).

Definition parse_files (req : request) (name : string) (field : field)
    : M raw :=
  ret (get_value (files_unawaited req) name field false).

(** [error_status_code or self.DEFAULT_VALIDATION_STATUS] *)
Definition or_default (error_status_code : option Z) : Z :=
  match error_status_code with
  | None => DEFAULT_VALIDATION_STATUS
  | Some code => if code =? 0 then DEFAULT_VALIDATION_STATUS else code
  end.

Definition handle_error {A} (error : validation_error) (req : request)
    (schema : list (string * field)) (error_status_code : option Z)
    (error_headers : pyval) : M A :=
  let status_code := or_default error_status_code in
  abort status_code (Some (ValidationError error))
    {[ "messages" := KwVal (messages error);
       "schema" := KwSchema schema;
       "headers" := KwVal error_headers ]}.

(** [getattr(self, name)] for the methods the location map names. *)
Definition getattr (name : string)
    : option (request -> string -> field -> M raw) :=
  if String.eqb name "parse_view_args" then Some parse_view_args
  else if String.eqb name "parse_form" then Some parse_form
  else if String.eqb name "parse_json" then Some parse_json
  else if String.eqb name "parse_querystring" then Some parse_querystring
  else if String.eqb name "parse_headers" then Some parse_headers
  else if String.eqb name "parse_cookies" then Some parse_cookies
  else if String.eqb name "parse_files" then Some parse_files
  else None.

(** [parser = QuartParser()]: the instance the module exports, its cache
    empty as [Parser.__init__] leaves it. *)
Definition parser : QuartParser := {| _cache := ∅; awaited := [] |}.

End quartparser.

(** ** marshmallow fields (external) *)

Module fields.
Import core.

Definition digit (c : ascii) : option Z :=
  let n := nat_of_ascii c in
  if ((48 <=? n) && (n <=? 57))%nat then Some (Z.of_nat n - 48) else None.

Fixpoint digits (acc : Z) (s : string) : option Z :=
  match s with
  | EmptyString => Some acc
  | String c s' =>
      match digit c with
      | Some d => digits (10 * acc + d) s'
      | None => None
      end
  end.

(** [int(s)] on a decimal numeral with an optional sign; the other
    spellings Python accepts are left out. *)
Definition int (s : string) : option Z :=
  match s with
  | EmptyString => None
  | String "-" (String _ _ as s') => Z.opp <$> digits 0 s'
  | String "+" (String _ _ as s') => digits 0 s'
  | _ => digits 0 s
  end.

Definition Str (required : bool) (location : option string) : field :=
  {| is_multiple := false; nested_many := false;
     location := location; required := required;
     deserialize := fun v =>
       match v with
       | PyNone => inl "Field may not be null."
       | PyStr s => inr (PyStr s)
       | _ => inl "Not a valid string."
       end |}.

Definition Int (required : bool) (location : option string) : field :=
  {| is_multiple := false; nested_many := false;
     location := location; required := required;
     deserialize := fun v =>
       match v with
       | PyNone => inl "Field may not be null."
       | PyInt z => inr (PyInt z)
       | PyStr s =>
           match int s with
           | Some z => inr (PyInt z)
           | None => inl "Not a valid integer."
           end
       | _ => inl "Not a valid integer."
       end |}.

End fields.

(** ** webargs.asyncparser (external)

    The base class that drives the resolvers: [parse] clears the cache,
    resolves every field of the schema from its locations, loads the raw
    values through the schema and hands a validation failure to
    [handle_error]. *)

Module asyncparser.
Import core quart.

Definition DEFAULT_LOCATIONS : list string := ["querystring"; "form"; "json"].

(** [self.clear_cache()] *)
Definition clear_cache : M unit :=
  fun self => (Return tt, {| _cache := ∅; awaited := awaited self |}).

(** [_get_handler(location)] *)
Definition _get_handler (location : string)
    : option (request -> string -> field -> M raw) :=
  quartparser.__location_map__ !! location ≫= quartparser.getattr.

(** [_get_value(name, argobj, req, location)] *)
Definition _get_value (name : string) (argobj : field) (req : request)
    (location : string) : M raw :=
  match _get_handler location with
  | Some function => function req name argobj
  | None => raise (ValueError ("Invalid location: " ++ location))
  end.

Fixpoint first_found (locations_to_check : list string) (name : string)
    (field : field) (req : request) : M raw :=
  match locations_to_check with
  | [] => ret missing
  | location :: rest =>
      let! value := _get_value name field req location in
      match value with
      | missing => first_found rest name field req
      | Found _ => ret value
      end
  end.

(** [parse_arg(name, field, req, locations)] *)
Definition parse_arg (name : string) (field : field) (req : request)
    (locations : list string) : M raw :=
  let locations_to_check :=
    match location field with
    | Some location => [location]
    | None => locations
    end in
  match
    List.find (fun l => negb (bool_decide (is_Some (_get_handler l))))
      locations_to_check
  with
  | Some invalid => raise (ValueError ("Invalid location: " ++ invalid))
  | None => first_found locations_to_check name field req
  end.

(** [_parse_request(schema, req, locations)] *)
Fixpoint _parse_request (schema : list (string * field)) (req : request)
    (locations : list string) (parsed : gmap string pyval)
    : M (gmap string pyval) :=
  match schema with
  | [] => ret parsed
  | (argname, field_obj) :: rest =>
      let! parsed_value := parse_arg argname field_obj req locations in
      match parsed_value with
      | missing => _parse_request rest req locations parsed
      | Found v => _parse_request rest req locations (<[argname := v]> parsed)
      end
  end.

(** [schema.load(parsed)]: the loaded data and the messages of the fields
    that failed. *)
Fixpoint load (schema : list (string * field)) (parsed : gmap string pyval)
    : gmap string pyval * gmap string pyval :=
  match schema with
  | [] => (∅, ∅)
  | (name, field_obj) :: rest =>
      let (data, errors) := load rest parsed in
      match parsed !! name with
      | Some v =>
          match deserialize field_obj v with
          | inr v' => (<[name := v']> data, errors)
          | inl msg => (data, <[name := PyList [PyStr msg]]> errors)
          end
      | None =>
          if required field_obj then
            (data,
             <[name := PyList [PyStr "Missing data for required field."]]> errors)
          else (data, errors)
      end
  end.

(** [parse(argmap, req, locations, error_status_code, error_headers)] *)
Definition parse (argmap : list (string * field)) (req : request)
    (locations : list string) (error_status_code : option Z)
    (error_headers : pyval) : M (gmap string pyval) :=
  clear_cache;;
  let! parsed := _parse_request argmap req locations ∅ in
  let (data, errors) := load argmap parsed in
  if bool_decide (errors = ∅) then ret data
  else
    quartparser.handle_error {| messages := PyDict errors |} req argmap
      error_status_code error_headers.

End asyncparser.

(** ** app.py *)

Module app.
Import core quart.

(** What serving a request ends in: a response body, an exception raised
    on the way, or the [TypeError] of adding a value that is no string to a
    string. *)
Inductive outcome : Type :=
  | Responded (body : string)
  | Failed (e : exn)
  | TypeError.

(** [hello_args = {'name': fields.Str(required=True)}] *)
Definition hello_args : list (string * field) :=
  [("name", fields.Str true None)].

(** [use_args(argmap)] around a view (webargs, external): parse the
    request with the parser's default locations and no status or headers
    override, then call the view with the parsed arguments. *)
Definition use_args (argmap : list (string * field))
    (func : gmap string pyval -> outcome) (req : request)
    : QuartParser -> outcome * QuartParser :=
  fun self =>
    match
      asyncparser.parse argmap req asyncparser.DEFAULT_LOCATIONS None PyNone
        self
    with
    | (Return args, self') => (func args, self')
    | (Raise e, self') => (Failed e, self')
    end.

(** [def index(args): return 'Hello ' + args['name']] *)
Definition index (args : gmap string pyval) : outcome :=
  match args !! "name" with
  | None => Failed (KeyError "name")
  | Some (PyStr s) => Responded ("Hello " ++ s)
  | Some _ => TypeError
  end.

(** The view registered at ['/']: [index] under [use_args(hello_args)]. *)
Definition route : request -> QuartParser -> outcome * QuartParser :=
  use_args hello_args index.

End app.

(** ** Notions the statements use *)

(** How many times [ev] was awaited so far. *)
Definition times (ev : event) (self : QuartParser) : nat :=
  List.length (filter (fun e => e = ev) (awaited self)).

(** The parser states met while one request is being parsed: [parse] starts
    from a cleared cache, and every step resolves some field of the request
    through a handler of the location map. *)
Inductive parsing (req : quart.request) : QuartParser -> Prop :=
  | parsing_cleared self :
      _cache self = ∅ -> parsing req self
  | parsing_resolved self location function name field :
      parsing req self ->
      asyncparser._get_handler location = Some function ->
      parsing req (function req name field self).2.

(** The cache holds nothing but what was decoded from [req]. *)
Definition cache_of (req : quart.request) (cache : gmap string pyobj) : Prop :=
  (forall o, cache !! "post" = Some o -> o = MultiDict (quart.form req)) /\
  (forall o, cache !! "json" = Some o ->
     exists v, o = Plain v /\ quart.json req = quart.Decoded v).

(** The object a location of the request stands for, the one whose [get]
    finds the values named there: for the files, what the request holds,
    whether or not the resolver awaits it; for a body that does not
    decode, none. *)
Definition located (location : string) (req : quart.request) : option pyobj :=
  if String.eqb location "view_args" then Some (quartparser.view_args_obj req)
  else if String.eqb location "querystring" then Some (MultiDict (quart.args req))
  else if String.eqb location "query" then Some (MultiDict (quart.args req))
  else if String.eqb location "form" then Some (MultiDict (quart.form req))
  else if String.eqb location "json" then
    match quart.json req with
    | quart.Decoded v => Some (Plain v)
    | quart.Undecodable => None
    end
  else if String.eqb location "headers" then Some (CIMultiDict (quart.headers req))
  else if String.eqb location "cookies" then Some (Plain (PyDict (quart.cookies req)))
  else if String.eqb location "files" then Some (MultiDict (quart.files req))
  else None.

(** The value [name] of [field] is absent from a location of the request:
    the location is there and has no value under that name, nor, for a
    [Nested] field with [many] in the JSON body, an array to take as the
    value. *)
Definition absent (location : string) (req : quart.request) (name : string)
    (field : core.field) : Prop :=
  exists data,
    located location req = Some data /\
    core.get data name = None /\
    (location = "json" -> core.nested_many field = true ->
     core.collection data = None).

(** The cache has nothing to reuse under [key]: no entry, or [None]. *)
Definition uncached (key : string) (self : QuartParser) : Prop :=
  is_None (default (Plain PyNone) (_cache self !! key)) = true.

(** Decoding the body of the request gives something [parse_json] keeps:
    a document other than [None], or a failure, which ends the parse. *)
Definition settles (req : quart.request) : Prop :=
  quart.json req <> quart.Decoded PyNone.

(** Each kind of body was decoded at most once since the form had been
    awaited [nf] times and the document [nj] times. *)
Definition at_most_once (nf nj : nat) (req : quart.request)
    (self : QuartParser) : Prop :=
  (times AwaitForm self <= nf + 1)%nat /\
  (settles req -> (times AwaitJson self <= nj + 1)%nat).

(** The same, together with what the cache tells: a kind with nothing to
    reuse has not been decoded yet. *)
Definition decoding (nf nj : nat) (req : quart.request)
    (self : QuartParser) : Prop :=
  ((times AwaitForm self <= nf + 1)%nat /\
   (uncached "post" self -> times AwaitForm self = nf)) /\
  (settles req ->
   (times AwaitJson self <= nj + 1)%nat /\
   (uncached "json" self -> times AwaitJson self = nj)).

(** The fixed payload of the invalid-body abort. *)
Definition invalid_json_messages : gmap string kwarg :=
  {[ "messages" :=
       KwVal (PyDict {[ "json" := PyList [PyStr "Invalid JSON body."] ]}) ]}.

(** The state once the body has been awaited. *)
Definition body_read (self : QuartParser) : QuartParser :=
  {| _cache := _cache self; awaited := AwaitBody :: awaited self |}.

(** The state once the body and then the document have been awaited. *)
Definition json_read (self : QuartParser) : QuartParser :=
  {| _cache := _cache self; awaited := AwaitJson :: AwaitBody :: awaited self |}.

(** ** Requests and fields of the examples *)

Definition no_content : quart.request :=
  {| quart.view_args := None; quart.args := []; quart.form := [];
     quart.body := []; quart.json := quart.Decoded PyNone;
     quart.headers := []; quart.cookies := ∅; quart.files := [];
     quart.mimetype := "" |}.

(** A request with the given content type, raw body and decoding outcome. *)
Definition with_body (content_type : string) (raw_body : string)
    (outcome : quart.json_result) : quart.request :=
  {| quart.view_args := None; quart.args := []; quart.form := [];
     quart.body := String.list_byte_of_string raw_body; quart.json := outcome;
     quart.headers := []; quart.cookies := ∅; quart.files := [];
     quart.mimetype := content_type |}.

(** A request with the given form. *)
Definition with_form (items : list (string * pyval)) : quart.request :=
  {| quart.view_args := None; quart.args := []; quart.form := items;
     quart.body := []; quart.json := quart.Decoded PyNone;
     quart.headers := []; quart.cookies := ∅; quart.files := [];
     quart.mimetype := "application/x-www-form-urlencoded" |}.

(** The request routed to [/users/<id>] from the path [/users/42]. *)
Definition users_42 : quart.request :=
  {| quart.view_args := Some {[ "id" := PyStr "42" ]}; quart.args := [];
     quart.form := []; quart.body := []; quart.json := quart.Decoded PyNone;
     quart.headers := []; quart.cookies := ∅; quart.files := [];
     quart.mimetype := "" |}.

Definition a_string : core.field := fields.Str false None.

(** Two fields located in the JSON body. *)
Definition two_json_fields : list (string * core.field) :=
  [ ("first", fields.Str false (Some "json"));
    ("second", fields.Str false (Some "json")) ].

(** * Properties *)

Section resolvers.
Import core quart quartparser.

Implicit Types (req : request) (name : string) (field : field)
  (self : QuartParser).

Lemma abort_raises {A} code exc kwargs self :
  code <> 301 ->
  abort (A := A) code exc kwargs self
  = (Raise (HTTPException code kwargs exc), self).
Proof.
  intros Hcode. unfold abort, try_except, quart.abort.
  by apply Z.eqb_neq in Hcode as ->.
Qed.

Lemma abort_301 {A} exc kwargs self :
  abort (A := A) 301 exc kwargs self = (Raise TypeError, self).
Proof. reflexivity. Qed.

(** What [handle_invalid_json_error] raises when it is called. *)
Lemma handle_invalid_json_error_eq {A} error req self :
  handle_invalid_json_error (A := A) error req self
  = (Raise (HTTPException 400 invalid_json_messages (Some error)), self).
Proof. reflexivity. Qed.

(** [parse_form] decodes the form unless the cache has a "post" entry
    other than [None]. *)
Lemma parse_form_eq req name field self :
  parse_form req name field self =
    match _cache self !! "post" with
    | Some post =>
        if is_None post then
          (Return (get_value (MultiDict (form req)) name field false),
           {| _cache := <["post" := MultiDict (form req)]> (_cache self);
              awaited := AwaitForm :: awaited self |})
        else (Return (get_value post name field false), self)
    | None =>
        (Return (get_value (MultiDict (form req)) name field false),
         {| _cache := <["post" := MultiDict (form req)]> (_cache self);
            awaited := AwaitForm :: awaited self |})
    end.
Proof.
  unfold parse_form, bind, cache_get, cache_item, await_form, cache_set, log, ret.
  destruct (_cache self !! "post") as [post|] eqn:Hpost; simpl.
  - destruct (is_None post); simpl.
    + by rewrite lookup_insert_eq.
    + by rewrite Hpost.
  - by rewrite lookup_insert_eq.
Qed.

Lemma parse_json_skipped req name field self :
  negb (bool_decide (body req = [])) && is_json_request req = false ->
  parse_json req name field self = (Return missing, body_read self).
Proof.
  intros H. unfold parse_json, bind, await_body, log, ret. simpl.
  by rewrite H.
Qed.

Lemma parse_json_eq req name field self :
  negb (bool_decide (body req = [])) && is_json_request req = true ->
  parse_json req name field self =
    let json_data := default (Plain PyNone) (_cache self !! "json") in
    if is_None json_data then
      match json req with
      | Decoded v =>
          (Return (get_value (Plain v) name field true),
           {| _cache := <["json" := Plain v]> (_cache self);
              awaited := AwaitJson :: AwaitBody :: awaited self |})
      | Undecodable => (Raise BadRequest, json_read self)
      end
    else (Return (get_value json_data name field true), body_read self).
Proof.
  intros H.
  unfold parse_json, bind, await_body, log, ret, cache_get, attempt,
    await_json, cache_set, raise. simpl. rewrite H. simpl.
  destruct (is_None (default (Plain PyNone) (_cache self !! "json"))); [|done].
  unfold bind, log, ret, raise. simpl.
  by destruct (json req) as [v|].
Qed.

(** The handlers the location map gives, location by location. *)
Lemma get_handler_Some location function :
  asyncparser._get_handler location = Some function ->
  (location = "view_args" /\ function = parse_view_args) \/
  (location = "json" /\ function = parse_json) \/
  (location = "querystring" /\ function = parse_querystring) \/
  (location = "query" /\ function = parse_querystring) \/
  (location = "form" /\ function = parse_form) \/
  (location = "headers" /\ function = parse_headers) \/
  (location = "cookies" /\ function = parse_cookies) \/
  (location = "files" /\ function = parse_files).
Proof.
  unfold asyncparser._get_handler, __location_map__, core.__location_map__.
  simpl. intros H.
  apply bind_Some in H as (method & Hmap & Hattr).
  repeat (apply lookup_insert_Some in Hmap as [[<- <-]|[_ Hmap]];
          [cbv [getattr String.eqb Ascii.eqb Bool.eqb] in Hattr;
           injection Hattr as <-; tauto|]).
  by rewrite lookup_empty in Hmap.
Qed.

(** While one request is parsed the cache holds only its own content. *)
Lemma parsing_cache_of req self : parsing req self -> cache_of req (_cache self).
Proof.
  induction 1 as [self Hempty|self location function name field _ IH Hh].
  - rewrite Hempty. split; intros o Ho; by rewrite lookup_empty in Ho.
  - destruct IH as [IHpost IHjson].
    apply get_handler_Some in Hh
      as [[_ ->]|[[_ ->]|[[_ ->]|[[_ ->]|[[_ ->]|[[_ ->]|[[_ ->]|[_ ->]]]]]]]];
      try (by split).
    + (* parse_json *)
      destruct (negb (bool_decide (body req = [])) && is_json_request req)
        eqn:Hgate.
      * rewrite (parse_json_eq _ _ _ _ Hgate). simpl.
        destruct (is_None _); [|by split].
        destruct (json req) as [v|] eqn:Hjson; simpl.
        -- split; intros o Ho.
           ++ rewrite lookup_insert_ne in Ho by done. eauto.
           ++ rewrite lookup_insert_eq in Ho. injection Ho as <-. eauto.
        -- rewrite <- Hjson in IHjson. by split.
      * rewrite (parse_json_skipped _ _ _ _ Hgate). by split.
    + (* parse_form *)
      rewrite parse_form_eq.
      assert (cache_of req (<["post" := MultiDict (form req)]> (_cache self))).
      { split; intros o Ho.
        - rewrite lookup_insert_eq in Ho. by injection Ho as <-.
        - rewrite lookup_insert_ne in Ho by done. eauto. }
      destruct (_cache self !! "post") as [post|] eqn:Hcached; [|done].
      rewrite <- Hcached in IHpost.
      destruct (is_None post); simpl; [done|by split].
Qed.

End resolvers.

(** ** The JSON body *)

Section json_body.
Import core quart quartparser.

Implicit Types (req : request) (name : string) (field : field)
  (self : QuartParser).

(** C1, what the code does.  While a request is parsed, if its raw body is
    not empty, its mimetype is a JSON mimetype and the body does not
    decode, then resolving a JSON field ends in the [BadRequest] that
    awaiting the document raises: status 400, no messages in its data and
    no exception attached.  The decoder's exception never reaches the
    [except] clause, so [handle_invalid_json_error], which would attach the
    messages [{"json": ["Invalid JSON body."]}], is not called. *)
Theorem malformed_json_body_ends_in_bad_request req name field self :
  parsing req self ->
  body req <> [] ->
  is_json_request req = true ->
  json req = Undecodable ->
  parse_json req name field self
  = (Raise (HTTPException 400 ∅ None), json_read self)
  /\ (forall error req' self',
        (handle_invalid_json_error (A := raw) error req' self').1
        <> (parse_json req name field self).1).
Proof.
  intros Hparsing Hbody Hmime Hjson.
  assert (parse_json req name field self
          = (Raise (HTTPException 400 ∅ None), json_read self)) as Heq.
  { rewrite parse_json_eq.
    - apply parsing_cache_of in Hparsing as [_ Hcached].
      destruct (_cache self !! "json") as [o|] eqn:Ho; simpl.
      + destruct (Hcached o eq_refl) as (v & _ & Hv). congruence.
      + by rewrite Hjson.
    - rewrite Hmime, bool_decide_eq_false_2; done. }
  split; [done|].
  intros error req' self'. rewrite Heq, handle_invalid_json_error_eq. simpl.
  congruence.
Qed.

Lemma malformed_json_body_ends_in_bad_request_witness :
  parse_json (with_body "application/json" "{" Undecodable) "name" a_string
    parser
  = (Raise (HTTPException 400 ∅ None), json_read parser)
  /\ (forall error req' self',
        (handle_invalid_json_error (A := raw) error req' self').1
        <> (parse_json (with_body "application/json" "{" Undecodable) "name"
              a_string parser).1).
Proof.
  apply (malformed_json_body_ends_in_bad_request
           (with_body "application/json" "{" Undecodable)
           "name" a_string parser).
  - apply parsing_cleared. reflexivity.
  - discriminate.
  - reflexivity.
  - reflexivity.
Defined.

(** C2. When the raw body of the request is empty, resolving a JSON field
    returns [missing]: nothing is raised, the document is not awaited and
    the cache stays as it was. *)
Theorem empty_body_is_missing req name field self :
  body req = [] ->
  parse_json req name field self = (Return missing, body_read self).
Proof.
  intros Hbody. apply parse_json_skipped.
  by rewrite Hbody.
Qed.

Lemma empty_body_is_missing_witness :
  parse_json (with_body "application/json" "" Undecodable)
    "name" a_string parser
  = (Return missing, body_read parser).
Proof.
  apply (empty_body_is_missing
           (with_body "application/json" "" Undecodable)
           "name" a_string parser).
  reflexivity.
Defined.

(** C9. When the mimetype of the request is not a JSON mimetype, resolving
    a JSON field returns [missing] whatever the body: nothing is raised,
    the document is not awaited and the cache stays as it was. *)
Theorem non_json_mimetype_is_missing req name field self :
  is_json_request req = false ->
  parse_json req name field self = (Return missing, body_read self)
  /\ times AwaitJson (parse_json req name field self).2 = times AwaitJson self.
Proof.
  intros Hmime.
  assert (parse_json req name field self = (Return missing, body_read self))
    as ->; [|done].
  apply parse_json_skipped. rewrite Hmime. apply andb_false_r.
Qed.

Lemma non_json_mimetype_is_missing_witness :
  parse_json (with_body "text/plain" "{}" (Decoded (PyDict ∅)))
    "name" a_string parser
  = (Return missing, body_read parser)
  /\ times AwaitJson
       (parse_json (with_body "text/plain" "{}" (Decoded (PyDict ∅)))
          "name" a_string parser).2
     = times AwaitJson parser.
Proof.
  apply (non_json_mimetype_is_missing
           (with_body "text/plain" "{}" (Decoded (PyDict ∅)))
           "name" a_string parser).
  reflexivity.
Defined.

(** C10. [parse_json] writes the cache only after a successful decode,
    and then only its "json" entry: when decoding fails the cache is
    left as it was; when decoding succeeds the cache is unchanged or
    gained the decoded document. *)
Theorem json_cache_written_on_success_only req name field self :
  let cache' := _cache (parse_json req name field self).2 in
  match json req with
  | Undecodable => cache' = _cache self
  | Decoded v =>
      cache' = _cache self \/ cache' = <["json" := Plain v]> (_cache self)
  end.
Proof.
  simpl.
  destruct (negb (bool_decide (body req = [])) && is_json_request req)
    eqn:Hgate.
  - rewrite (parse_json_eq _ _ _ _ Hgate). simpl.
    destruct (is_None _).
    + destruct (json req) as [v|]; simpl; [by right|done].
    + destruct (json req); simpl; auto.
  - rewrite (parse_json_skipped _ _ _ _ Hgate). simpl.
    destruct (json req); auto.
Qed.

End json_body.

(** ** Aborting *)

Section aborting.
Import core quart quartparser.

Implicit Types (req : request) (name : string) (field : field)
  (self : QuartParser) (error : validation_error).

Lemma handle_error_eq {A} error req schema error_status_code error_headers self :
  or_default error_status_code <> 301 ->
  handle_error (A := A) error req schema error_status_code error_headers self
  = (Raise
       (HTTPException (or_default error_status_code)
          {[ "messages" := KwVal (messages error);
             "schema" := KwSchema schema;
             "headers" := KwVal error_headers ]}
          (Some (ValidationError error))),
     self).
Proof. intros Hcode. unfold handle_error. by rewrite abort_raises. Qed.

(** An override of 0 counts as none: the abort carries 422. *)
Lemma override_zero_is_not_used error req schema error_headers self :
  exists data exc,
    handle_error (A := raw) error req schema (Some 0) error_headers self
    = (Raise (HTTPException 422 data exc), self).
Proof. do 2 eexists. by rewrite handle_error_eq. Qed.

(** With no override, or with one other than 0 and 301, a validation
    failure aborts with status 422, or with the override, and the abort
    carries the messages of the validation error. *)
Lemma validation_failure_aborts_422_or_override
    error req schema error_status_code error_headers self :
  error_status_code <> Some 301 ->
  exists data,
    handle_error (A := raw) error req schema error_status_code error_headers
      self
    = (Raise
         (HTTPException
            match error_status_code with
            | None | Some 0 => 422
            | Some code => code
            end
            data (Some (ValidationError error))),
       self)
    /\ data !! "messages" = Some (KwVal (messages error)).
Proof.
  intros Hcode. eexists. split.
  - rewrite handle_error_eq.
    + do 3 f_equal. destruct error_status_code as [[| |]|]; reflexivity.
    + destruct error_status_code as [[| |]|]; try done.
      simpl. congruence.
  - by rewrite lookup_insert_eq.
Qed.

(** C4, what the code does.  With the override 301 a validation failure
    does not abort with the caller's status code: [quart.abort(301)] ends
    in a [TypeError], which the [except HTTPException] of [abort] lets
    through, so no [HTTPException] is raised and no messages are carried. *)
Theorem override_301_ends_in_type_error error req schema error_headers self :
  handle_error (A := raw) error req schema (Some 301) error_headers self
  = (Raise TypeError, self).
Proof. reflexivity. Qed.

(** Whatever [parse_json] raises is the [BadRequest] of a body that does
    not decode. *)
Lemma parse_json_raises req name field self e :
  (parse_json req name field self).1 = Raise e ->
  json req = Undecodable /\ e = BadRequest.
Proof.
  destruct (negb (bool_decide (body req = [])) && is_json_request req)
    eqn:Hgate.
  - rewrite (parse_json_eq _ _ _ _ Hgate). simpl.
    destruct (is_None _); [|discriminate].
    destruct (json req) as [v|]; [discriminate|].
    simpl. by intros [= <-].
  - rewrite (parse_json_skipped _ _ _ _ Hgate). discriminate.
Qed.

(** C8, what the code does.  The abort of a body that does not decode
    carries neither messages nor the originating exception: whatever
    [parse_json] raises is an [HTTPException] of status 400 whose data has
    no "messages" entry and whose [exc] is [None]. *)
Theorem malformed_json_abort_carries_nothing req name field self e :
  (parse_json req name field self).1 = Raise e ->
  exists data,
    e = HTTPException 400 data None /\ data !! "messages" = None.
Proof.
  intros Hraise. apply parse_json_raises in Hraise as [_ ->].
  by exists ∅.
Qed.

Lemma malformed_json_abort_carries_nothing_witness :
  exists data,
    HTTPException 400 ∅ None = HTTPException 400 data None
    /\ data !! "messages" = None.
Proof.
  apply (malformed_json_abort_carries_nothing
           (with_body "application/json" "{" Undecodable) "name" a_string
           parser (HTTPException 400 ∅ None)).
  reflexivity.
Defined.

(** The abort of a validation failure does carry both: the messages of the
    validation error in its data and the validation error as [exc]. *)
Lemma validation_abort_carries_messages_and_exception
    error req schema error_status_code error_headers self :
  error_status_code <> Some 301 ->
  exists status data,
    (handle_error (A := raw) error req schema error_status_code
       error_headers self).1
    = Raise (HTTPException status data (Some (ValidationError error)))
    /\ data !! "messages" = Some (KwVal (messages error)).
Proof.
  intros Hcode.
  destruct (validation_failure_aborts_422_or_override error req schema
              error_status_code error_headers self Hcode)
    as (data & -> & Hdata).
  eauto.
Qed.

End aborting.

(** ** The location resolvers *)

Section locations.
Import core quart quartparser.

Implicit Types (req : request) (name : string) (field : field)
  (self : QuartParser).

Lemma get_value_absent data name field allow_many_nested :
  get data name = None ->
  (allow_many_nested = true -> nested_many field = true ->
   collection data = None) ->
  get_value data name field allow_many_nested = missing.
Proof.
  intros Hget Hnested. unfold get_value.
  destruct allow_many_nested, (nested_many field); simpl;
    try rewrite Hnested by done; rewrite Hget; by destruct (negb _).
Qed.

(** C6. The location map sends [view_args] to [parse_view_args], which
    returns the value the request's [view_args] holds under the name.
    For the route [/users/<id>] and the path [/users/42] the router binds
    [id] to the segment "42" (to 42 under an integer converter); parsing
    the schema with the one integer field [id] located in [view_args]
    then returns the mapping of [id] to 42. *)
Theorem path_variable_is_parsed req va v locations error_status_code
    error_headers self :
  view_args req = Some va ->
  va !! "id" = Some v ->
  v = PyStr "42" \/ v = PyInt 42 ->
  quartparser.__location_map__ !! "view_args" = Some "parse_view_args"
  /\ getattr "parse_view_args" = Some parse_view_args
  /\ parse_view_args req "id" (fields.Int true (Some "view_args")) self
     = (Return (Found v), self)
  /\ (asyncparser.parse [("id", fields.Int true (Some "view_args"))] req
        locations error_status_code error_headers self).1
     = Return {[ "id" := PyInt 42 ]}.
Proof.
  intros Hva Hid Hv.
  assert (asyncparser._get_handler "view_args" = Some parse_view_args)
    as Hhandler by reflexivity.
  assert (parse_view_args req "id" (fields.Int true (Some "view_args")) self
          = (Return (Found v), self)) as Hresolve.
  { unfold parse_view_args, ret, view_args_obj, get_value.
    rewrite Hva. simpl. by rewrite Hid. }
  repeat split; [done|].
  unfold asyncparser.parse, bind, asyncparser.clear_cache. simpl.
  unfold asyncparser.parse_arg. simpl. rewrite Hhandler. simpl.
  unfold asyncparser._get_value. rewrite Hhandler.
  unfold parse_view_args, ret, view_args_obj, get_value.
  rewrite Hva. simpl. rewrite Hid. simpl.
  rewrite lookup_insert_eq.
  destruct Hv as [-> | ->]; simpl; by rewrite insert_empty.
Qed.

Lemma path_variable_is_parsed_witness :
  quartparser.__location_map__ !! "view_args" = Some "parse_view_args"
  /\ getattr "parse_view_args" = Some parse_view_args
  /\ parse_view_args users_42 "id" (fields.Int true (Some "view_args")) parser
     = (Return (Found (PyStr "42")), parser)
  /\ (asyncparser.parse [("id", fields.Int true (Some "view_args"))] users_42
        asyncparser.DEFAULT_LOCATIONS None PyNone parser).1
     = Return {[ "id" := PyInt 42 ]}.
Proof.
  apply (path_variable_is_parsed users_42 {[ "id" := PyStr "42" ]}
           (PyStr "42") asyncparser.DEFAULT_LOCATIONS None PyNone parser).
  - reflexivity.
  - reflexivity.
  - left. reflexivity.
Defined.

End locations.

Section absent_values.
Import core quart quartparser.

Implicit Types (req : request) (name : string) (field : field)
  (self : QuartParser).

(** The resolvers that only look a name up in an attribute of the
    request: the state stays as it is and an absent name gives [missing]. *)
Ltac read_only_resolver Hdata Hget :=
  injection Hdata as <-;
  split; [|done];
  cbv [parse_view_args parse_querystring parse_headers parse_cookies ret];
  simpl; by rewrite get_value_absent.

(** C7. While a request is parsed, a resolver asked for a value that is
    absent from its location returns [missing] and raises nothing, for
    every location of the map: query string, form, JSON body, headers,
    cookies, [view_args], files.  A resolver has the request as an
    argument it only reads; of the cache it writes the "post" and "json"
    entries only. *)
Theorem absent_value_is_missing location function req name field self :
  asyncparser._get_handler location = Some function ->
  parsing req self ->
  absent location req name field ->
  (function req name field self).1 = Return missing
  /\ (forall key, key <> "post" -> key <> "json" ->
        _cache (function req name field self).2 !! key = _cache self !! key).
Proof.
  intros Hhandler Hparsing (data & Hdata & Hget & Hnested).
  apply parsing_cache_of in Hparsing as [Hpost Hjson].
  apply get_handler_Some in Hhandler
    as [[-> ->]|[[-> ->]|[[-> ->]|[[-> ->]|[[-> ->]|[[-> ->]|[[-> ->]|[-> ->]]]]]]]];
    cbv [located String.eqb Ascii.eqb Bool.eqb] in Hdata.
  - (* view_args *) by read_only_resolver Hdata Hget.
  - (* json *)
    destruct (json req) as [v|] eqn:Hv; [|discriminate].
    injection Hdata as <-.
    assert (get_value (Plain v) name field true = missing) as Hmissing
      by (apply get_value_absent; auto).
    destruct (negb (bool_decide (body req = [])) && is_json_request req)
      eqn:Hgate.
    + rewrite (parse_json_eq _ _ _ _ Hgate). simpl. rewrite Hv.
      destruct (_cache self !! "json") as [o|] eqn:Ho; simpl.
      * destruct (Hjson o eq_refl) as (v' & -> & Hv').
        assert (v' = v) as -> by congruence.
        destruct (is_None (Plain v)); simpl; rewrite Hmissing;
          (split; [done|]); [|done].
        intros key _ Hkey. by rewrite lookup_insert_ne.
      * rewrite Hmissing. split; [done|].
        intros key _ Hkey. by rewrite lookup_insert_ne.
    + rewrite (parse_json_skipped _ _ _ _ Hgate). by split.
  - (* querystring *) by read_only_resolver Hdata Hget.
  - (* query *) by read_only_resolver Hdata Hget.
  - (* form *)
    injection Hdata as <-.
    assert (get_value (MultiDict (form req)) name field false = missing)
      as Hmissing by by rewrite get_value_absent.
    rewrite parse_form_eq.
    destruct (_cache self !! "post") as [post|] eqn:Hcached.
    + rewrite (Hpost post eq_refl). simpl. by rewrite Hmissing.
    + simpl. rewrite Hmissing. split; [done|].
      intros key Hkey _. by rewrite lookup_insert_ne.
  - (* headers *) by read_only_resolver Hdata Hget.
  - (* cookies *) by read_only_resolver Hdata Hget.
  - (* files: the coroutine has no [get] *) by split.
Qed.

Lemma absent_value_is_missing_witness :
  (parse_json (with_body "application/json" "{}" (Decoded (PyDict ∅)))
     "name" a_string parser).1
  = Return missing
  /\ (forall key, key <> "post" -> key <> "json" ->
        _cache
          (parse_json (with_body "application/json" "{}" (Decoded (PyDict ∅)))
             "name" a_string parser).2
        !! key
        = _cache parser !! key).
Proof.
  apply (absent_value_is_missing "json" parse_json
           (with_body "application/json" "{}" (Decoded (PyDict ∅)))
           "name" a_string parser).
  - reflexivity.
  - apply parsing_cleared. reflexivity.
  - exists (Plain (PyDict ∅)).
    split; [reflexivity|]. split; [reflexivity|]. discriminate.
Defined.

End absent_values.

(** ** The cache across requests *)

Section across_requests.
Import core quart quartparser.

Implicit Types (req : request) (name : string) (field : field)
  (self : QuartParser).

(** C5, as stated, fails: the cache belongs to the parser and its keys
    are "post" and "json", so the parser that has resolved a form field
    of one request answers the next request from the form of the first. *)
Lemma cached_form_is_seen_by_the_next_request :
  ~ (forall req1 req2 name field self,
       parsing req1 self ->
       (parse_form req2 name field self).1
       = (parse_form req2 name field parser).1).
Proof.
  intros H.
  specialize (H (with_form [("name", PyStr "Ann")]) (with_form [])
                "name" a_string
                (parse_form (with_form [("name", PyStr "Ann")])
                   "name" a_string parser).2).
  assert (parsing (with_form [("name", PyStr "Ann")])
            (parse_form (with_form [("name", PyStr "Ann")])
               "name" a_string parser).2) as Hparsing.
  { apply (parsing_resolved _ parser "form"); [|reflexivity].
    apply parsing_cleared. reflexivity. }
  specialize (H Hparsing). vm_compute in H. discriminate.
Qed.

(** C5, amended. The cache is a field of the parser keyed by content kind
    alone.  From a cleared cache every resolver answers a request as the
    fresh parser does.  When the cache holds a "post" entry other than
    [None], [parse_form] answers every request from that entry without
    awaiting its form; when it holds a "json" entry other than [None],
    [parse_json] answers every request with a non-empty JSON body from
    that entry without awaiting its document. *)
Theorem cache_is_keyed_by_content_kind req name field self :
  (_cache self = ∅ ->
   forall location function,
     asyncparser._get_handler location = Some function ->
     (function req name field self).1 = (function req name field parser).1)
  /\ (forall post,
        _cache self !! "post" = Some post -> is_None post = false ->
        parse_form req name field self
        = (Return (get_value post name field false), self))
  /\ (forall doc,
        _cache self !! "json" = Some doc -> is_None doc = false ->
        body req <> [] -> is_json_request req = true ->
        parse_json req name field self
        = (Return (get_value doc name field true), body_read self)).
Proof.
  split; [|split].
  - intros Hempty location function Hhandler.
    apply get_handler_Some in Hhandler
      as [[_ ->]|[[_ ->]|[[_ ->]|[[_ ->]|[[_ ->]|[[_ ->]|[[_ ->]|[_ ->]]]]]]]];
      try reflexivity.
    + destruct (negb (bool_decide (body req = [])) && is_json_request req)
        eqn:Hgate.
      * rewrite !(parse_json_eq _ _ _ _ Hgate). simpl.
        rewrite Hempty, !lookup_empty. simpl.
        by destruct (json req) as [v|].
      * by rewrite !(parse_json_skipped _ _ _ _ Hgate).
    + rewrite !parse_form_eq. simpl. by rewrite Hempty, !lookup_empty.
  - intros post Hpost Hnone. rewrite parse_form_eq, Hpost. by rewrite Hnone.
  - intros doc Hdoc Hnone Hbody Hmime. rewrite parse_json_eq.
    + simpl. rewrite Hdoc. simpl. by rewrite Hnone.
    + rewrite Hmime, bool_decide_eq_false_2; done.
Qed.

Lemma cache_is_keyed_by_content_kind_witness :
  parse_form (with_form []) "name" a_string
    (parse_form (with_form [("name", PyStr "Ann")]) "name" a_string parser).2
  = (Return (Found (PyStr "Ann")),
     (parse_form (with_form [("name", PyStr "Ann")]) "name" a_string parser).2).
Proof.
  apply (proj1 (proj2 (cache_is_keyed_by_content_kind (with_form []) "name"
                         a_string
                         (parse_form (with_form [("name", PyStr "Ann")])
                            "name" a_string parser).2))
           (MultiDict [("name", PyStr "Ann")])).
  - reflexivity.
  - reflexivity.
Defined.

End across_requests.

(** ** Decoding a body once *)

Section decoding_once.
Import core quart quartparser.

Implicit Types (req : request) (name : string) (field : field)
  (self : QuartParser) (nf nj : nat).

Lemma decoding_at_most_once nf nj req self :
  decoding nf nj req self -> at_most_once nf nj req self.
Proof. intros [[Hform _] Hjson]. split; [done|]. intros Hs. by apply Hjson. Qed.

Lemma times_cons ev e cache l :
  times ev {| _cache := cache; awaited := e :: l |}
  = if decide (e = ev)
    then S (times ev {| _cache := cache; awaited := l |})
    else times ev {| _cache := cache; awaited := l |}.
Proof. unfold times. simpl. rewrite filter_cons. by case_decide. Qed.

Lemma times_cache ev cache self :
  times ev {| _cache := cache; awaited := awaited self |} = times ev self.
Proof. reflexivity. Qed.

(** Reading the body decodes nothing. *)
Lemma body_read_decoding nf nj req self :
  decoding nf nj req self -> decoding nf nj req (body_read self).
Proof.
  unfold decoding, uncached, body_read. simpl.
  rewrite !times_cons, !times_cache. by repeat case_decide.
Qed.

(** A resolver keeps the bound, and after it returns the cache still
    tells what was decoded. *)
Lemma handler_decoding location function nf nj req name field self :
  asyncparser._get_handler location = Some function ->
  decoding nf nj req self ->
  at_most_once nf nj req (function req name field self).2 /\
  (forall v, (function req name field self).1 = Return v ->
     decoding nf nj req (function req name field self).2).
Proof.
  intros Hhandler Hdec.
  pose proof (decoding_at_most_once _ _ _ _ Hdec) as Hbound.
  pose proof (body_read_decoding _ _ _ _ Hdec) as Hread.
  apply get_handler_Some in Hhandler
    as [[_ ->]|[[_ ->]|[[_ ->]|[[_ ->]|[[_ ->]|[[_ ->]|[[_ ->]|[_ ->]]]]]]]];
    try (by split).
  - (* parse_json *)
    destruct (negb (bool_decide (body req = [])) && is_json_request req)
      eqn:Hgate.
    + rewrite (parse_json_eq _ _ _ _ Hgate). simpl.
      destruct (is_None (default (Plain PyNone) (_cache self !! "json")))
        eqn:Hnone; simpl;
        [|by split; [apply decoding_at_most_once|]].
      destruct Hdec as [[Hle Hnf] Hjson].
      destruct (json req) as [v|] eqn:Hv; simpl.
      * assert (decoding nf nj req
                  {| _cache := <["json" := Plain v]> (_cache self);
                     awaited := AwaitJson :: AwaitBody :: awaited self |})
          as Hdec'.
        { unfold decoding, uncached. simpl.
          rewrite !times_cons, !times_cache. repeat case_decide; try done.
          rewrite lookup_insert_ne by done. rewrite lookup_insert_eq. simpl.
          split; [done|]. intros Hs. destruct (Hjson Hs) as [_ Hnj].
          rewrite (Hnj Hnone). split; [lia|].
          unfold settles in Hs. rewrite Hv in Hs.
          destruct v; try discriminate. congruence. }
        split; [by apply decoding_at_most_once|done].
      * assert (at_most_once nf nj req (json_read self)) as Hbound'.
        { unfold at_most_once, json_read.
          rewrite !times_cons, !times_cache. repeat case_decide; try done.
          split; [done|]. intros Hs. destruct (Hjson Hs) as [_ Hnj].
          rewrite (Hnj Hnone). lia. }
        by split.
    + rewrite (parse_json_skipped _ _ _ _ Hgate). simpl.
      by split; [apply decoding_at_most_once|].
  - (* parse_form *)
    destruct Hdec as [[Hle Hnf] Hjson].
    rewrite parse_form_eq.
    assert (uncached "post" self ->
            decoding nf nj req
              {| _cache := <["post" := MultiDict (form req)]> (_cache self);
                 awaited := AwaitForm :: awaited self |}) as Hfresh.
    { intros Hun. unfold decoding, uncached. simpl.
      rewrite !times_cons, !times_cache. repeat case_decide; try done.
      rewrite lookup_insert_eq. rewrite lookup_insert_ne by done. simpl.
      rewrite (Hnf Hun). split; [split; [lia|done]|done]. }
    destruct (_cache self !! "post") as [post|] eqn:Hpost.
    + destruct (is_None post) eqn:Hnone; simpl; [|by split].
      assert (uncached "post" self) as Hun
        by (unfold uncached; by rewrite Hpost).
      split; [|by auto]. by apply decoding_at_most_once, Hfresh.
    + assert (uncached "post" self) as Hun
        by (unfold uncached; by rewrite Hpost).
      split; [|by auto]. by apply decoding_at_most_once, Hfresh.
Qed.

Lemma first_found_decoding locations_to_check nf nj req name field self :
  decoding nf nj req self ->
  at_most_once nf nj req
    (asyncparser.first_found locations_to_check name field req self).2 /\
  (forall v,
     (asyncparser.first_found locations_to_check name field req self).1
     = Return v ->
     decoding nf nj req
       (asyncparser.first_found locations_to_check name field req self).2).
Proof.
  revert self.
  induction locations_to_check as [|location rest IH]; intros self Hdec.
  - simpl. split; [by apply decoding_at_most_once|done].
  - simpl. unfold bind, asyncparser._get_value.
    destruct (asyncparser._get_handler location) as [function|] eqn:Hhandler.
    + destruct (handler_decoding location function nf nj req name field self
                  Hhandler Hdec) as [Hbound Hnext].
      destruct (function req name field self) as [[value|e] self'].
      * specialize (Hnext value eq_refl). simpl in Hnext.
        destruct value; [by apply IH|].
        split; [by apply decoding_at_most_once|done].
      * by split.
    + split; [by apply decoding_at_most_once|done].
Qed.

Lemma parse_arg_decoding locations nf nj req name field self :
  decoding nf nj req self ->
  at_most_once nf nj req
    (asyncparser.parse_arg name field req locations self).2 /\
  (forall v,
     (asyncparser.parse_arg name field req locations self).1 = Return v ->
     decoding nf nj req
       (asyncparser.parse_arg name field req locations self).2).
Proof.
  intros Hdec. unfold asyncparser.parse_arg.
  destruct (List.find _ _).
  - split; [by apply decoding_at_most_once|done].
  - by apply first_found_decoding.
Qed.

Lemma parse_request_decoding schema locations parsed nf nj req self :
  decoding nf nj req self ->
  at_most_once nf nj req
    (asyncparser._parse_request schema req locations parsed self).2.
Proof.
  revert parsed self.
  induction schema as [|[argname field_obj] rest IH]; intros parsed self Hdec.
  - by apply decoding_at_most_once.
  - simpl. unfold bind.
    destruct (parse_arg_decoding locations nf nj req argname field_obj self
                Hdec) as [Hbound Hnext].
    destruct (asyncparser.parse_arg argname field_obj req locations self)
      as [[value|e] self']; [|done].
    specialize (Hnext value eq_refl). simpl in Hnext.
    destruct value; by apply IH.
Qed.

(** For every schema the form is awaited at most once during one parse,
    and so is the JSON document unless it decodes to [None]. *)
Lemma body_is_decoded_at_most_once argmap req locations error_status_code
    error_headers self :
  let self' :=
    (asyncparser.parse argmap req locations error_status_code error_headers
       self).2 in
  (times AwaitForm self' <= times AwaitForm self + 1)%nat /\
  (json req <> Decoded PyNone ->
   (times AwaitJson self' <= times AwaitJson self + 1)%nat).
Proof.
  simpl.
  assert (at_most_once (times AwaitForm self) (times AwaitJson self) req
            (asyncparser.parse argmap req locations error_status_code
               error_headers self).2) as [Hform Hjson].
  { unfold asyncparser.parse, bind, asyncparser.clear_cache. simpl.
    pose proof (parse_request_decoding argmap locations ∅
                  (times AwaitForm self) (times AwaitJson self) req
                  {| _cache := ∅; awaited := awaited self |}) as Hbound.
    assert (decoding (times AwaitForm self) (times AwaitJson self) req
              {| _cache := ∅; awaited := awaited self |}) as Hstart.
    { split; [split; [unfold times; simpl; lia|done]|].
      intros _. split; [unfold times; simpl; lia|done]. }
    specialize (Hbound Hstart).
    destruct (asyncparser._parse_request argmap req locations ∅ _)
      as [[parsed|e] self']; [|done].
    destruct (asyncparser.load argmap parsed) as [data errors].
    destruct (bool_decide (errors = ∅)); [done|].
    unfold handle_error, abort, try_except, quart.abort.
    by destruct (or_default error_status_code =? 301). }
  split; [done|]. intros Hnone. by apply Hjson.
Qed.

(** C3, what the code does.  A body that decodes to [None] is stored in
    the cache as [None], which the next lookup takes for nothing cached:
    the second JSON field does not reuse what the first one stored, it
    awaits the document again. *)
Theorem none_document_is_awaited_again req name field name' field' self :
  body req <> [] ->
  is_json_request req = true ->
  json req = Decoded PyNone ->
  uncached "json" self ->
  _cache (parse_json req name field self).2 !! "json" = Some (Plain PyNone)
  /\ times AwaitJson
       (parse_json req name' field' (parse_json req name field self).2).2
     = S (S (times AwaitJson self)).
Proof.
  intros Hbody Hmime Hjson Hnone.
  assert (negb (bool_decide (body req = [])) && is_json_request req = true)
    as Hgate by (rewrite Hmime, bool_decide_eq_false_2; done).
  rewrite !(parse_json_eq _ _ _ _ Hgate). simpl.
  unfold uncached in Hnone. rewrite Hnone, Hjson. simpl.
  by rewrite lookup_insert_eq.
Qed.

Lemma none_document_is_awaited_again_witness :
  _cache
    (parse_json (with_body "application/json" "null" (Decoded PyNone))
       "first" a_string parser).2
  !! "json"
  = Some (Plain PyNone)
  /\ times AwaitJson
       (parse_json (with_body "application/json" "null" (Decoded PyNone))
          "second" a_string
          (parse_json (with_body "application/json" "null" (Decoded PyNone))
             "first" a_string parser).2).2
     = S (S (times AwaitJson parser)).
Proof.
  apply (none_document_is_awaited_again
           (with_body "application/json" "null" (Decoded PyNone))
           "first" a_string "second" a_string parser).
  - discriminate.
  - reflexivity.
  - reflexivity.
  - reflexivity.
Defined.

(** The same through a whole parse: two fields located in the JSON body
    of [null] await the document twice. *)
Lemma none_document_is_awaited_per_field :
  times AwaitJson
    (asyncparser.parse two_json_fields
       (with_body "application/json" "null" (Decoded PyNone))
       asyncparser.DEFAULT_LOCATIONS None PyNone parser).2
  = 2%nat.
Proof. vm_compute. reflexivity. Qed.

End decoding_once.

(** ** Two parses from the query string *)

Section query_string.
Import core quart quartparser.

(** The schema [{name: string, required}] and the query string
    [?name=Ann] give [{"name": "Ann"}]. *)
Lemma required_name_is_parsed :
  (asyncparser.parse [("name", fields.Str true None)]
     {| view_args := Some ∅; args := [("name", PyStr "Ann")]; form := [];
        body := []; json := Decoded PyNone; headers := []; cookies := ∅;
        files := []; mimetype := "" |}
     asyncparser.DEFAULT_LOCATIONS None PyNone parser).1
  = Return {[ "name" := PyStr "Ann" ]}.
Proof. vm_compute. reflexivity. Qed.

(** The same schema and no [name] parameter abort with status 422 and an
    entry for [name] in the messages. *)
Lemma required_name_is_missing :
  exists data exc,
    (asyncparser.parse [("name", fields.Str true None)] no_content
       asyncparser.DEFAULT_LOCATIONS None PyNone parser).1
    = Raise (HTTPException 422 data exc)
    /\ data !! "messages"
       = Some (KwVal (PyDict {[ "name" :=
                 PyList [PyStr "Missing data for required field."] ]})).
Proof. do 2 eexists. split; vm_compute; reflexivity. Qed.

End query_string.

(** ** Reading through the cache *)

Section through_the_cache.
Import core quart quartparser.

Implicit Types (req : request) (name : string) (field : field)
  (self : QuartParser).

(** X1. While a request is parsed, [parse_form] answers from the form of
    that request, whether it decodes the form or finds it cached, and
    raises nothing. *)
Theorem form_is_read_through_the_cache req name field self :
  parsing req self ->
  (parse_form req name field self).1
  = Return (get_value (MultiDict (form req)) name field false).
Proof.
  intros Hparsing. apply parsing_cache_of in Hparsing as [Hpost _].
  rewrite parse_form_eq.
  destruct (_cache self !! "post") as [post|] eqn:Hcached; [|done].
  by rewrite (Hpost post eq_refl).
Qed.

Lemma form_is_read_through_the_cache_witness :
  (parse_form (with_form [("name", PyStr "Ann")]) "name" a_string
     (parse_form (with_form [("name", PyStr "Ann")]) "other" a_string
        parser).2).1
  = Return
      (get_value (MultiDict (form (with_form [("name", PyStr "Ann")])))
         "name" a_string false).
Proof.
  apply (form_is_read_through_the_cache (with_form [("name", PyStr "Ann")])
           "name" a_string).
  apply (parsing_resolved _ parser "form"); [|reflexivity].
  apply parsing_cleared. reflexivity.
Defined.

(** What the JSON resolver answers while its request is parsed. *)
Lemma parse_json_decoded req name field self v :
  parsing req self ->
  body req <> [] ->
  is_json_request req = true ->
  json req = Decoded v ->
  (parse_json req name field self).1
  = Return (get_value (Plain v) name field true).
Proof.
  intros Hparsing Hbody Hmime Hv.
  apply parsing_cache_of in Hparsing as [_ Hjson].
  rewrite parse_json_eq by (rewrite Hmime, bool_decide_eq_false_2; done).
  simpl. destruct (_cache self !! "json") as [o|] eqn:Hcached; simpl.
  - destruct (Hjson o eq_refl) as (v' & -> & Hv').
    assert (v' = v) as -> by congruence.
    rewrite Hv. by destruct (is_None (Plain v)).
  - by rewrite Hv.
Qed.

(** X2. While a request with a non-empty body and a JSON mimetype is
    parsed, [parse_json] answers from the document its body decodes to,
    whether it decodes it or finds it cached, and afterwards the cache
    holds that document. *)
Theorem json_is_read_through_the_cache req name field self v :
  parsing req self ->
  body req <> [] ->
  is_json_request req = true ->
  json req = Decoded v ->
  (parse_json req name field self).1
  = Return (get_value (Plain v) name field true)
  /\ _cache (parse_json req name field self).2 !! "json" = Some (Plain v).
Proof.
  intros Hparsing Hbody Hmime Hv.
  split; [by apply parse_json_decoded|].
  apply parsing_cache_of in Hparsing as [_ Hjson].
  rewrite parse_json_eq by (rewrite Hmime, bool_decide_eq_false_2; done).
  simpl. rewrite Hv.
  destruct (_cache self !! "json") as [o|] eqn:Hcached; simpl.
  - destruct (Hjson o eq_refl) as (v' & -> & Hv').
    assert (v' = v) as -> by congruence.
    destruct (is_None (Plain v)); simpl; [|done]. apply lookup_insert_eq.
  - apply lookup_insert_eq.
Qed.

Lemma json_is_read_through_the_cache_witness :
  (parse_json
     (with_body "application/json" "{}" (Decoded (PyDict ∅))) "name" a_string
     (parse_json
        (with_body "application/json" "{}" (Decoded (PyDict ∅))) "other"
        a_string parser).2).1
  = Return (get_value (Plain (PyDict ∅)) "name" a_string true)
  /\ _cache
       (parse_json
          (with_body "application/json" "{}" (Decoded (PyDict ∅))) "name"
          a_string
          (parse_json
             (with_body "application/json" "{}" (Decoded (PyDict ∅))) "other"
             a_string parser).2).2
     !! "json"
     = Some (Plain (PyDict ∅)).
Proof.
  apply (json_is_read_through_the_cache
           (with_body "application/json" "{}" (Decoded (PyDict ∅)))
           "name" a_string).
  - apply (parsing_resolved _ parser "json"); [|reflexivity].
    apply parsing_cleared. reflexivity.
  - discriminate.
  - reflexivity.
  - reflexivity.
Defined.

(** X3. [parse_form] never raises, whatever the parser state: the entry it
    reads with [self._cache["post"]] is always there.  It awaits the form
    at most once and nothing else. *)
Theorem parse_form_never_raises req name field self :
  (exists value, (parse_form req name field self).1 = Return value) /\
  (awaited (parse_form req name field self).2 = awaited self \/
   awaited (parse_form req name field self).2 = AwaitForm :: awaited self).
Proof.
  rewrite parse_form_eq.
  destruct (_cache self !! "post") as [post|]; [destruct (is_None post)|];
    simpl; eauto.
Qed.

(** X4. After one [parse_form], every further [parse_form] on the parser,
    for any request, name and field, is a cache hit: it awaits nothing and
    leaves the parser as it is. *)
Theorem second_parse_form_is_a_cache_hit req name field req' name' field' self :
  (parse_form req' name' field' (parse_form req name field self).2).2
  = (parse_form req name field self).2.
Proof.
  rewrite (parse_form_eq req).
  destruct (_cache self !! "post") as [post|] eqn:Hcached;
    [destruct (is_None post) eqn:Hnone|]; simpl;
    rewrite parse_form_eq; simpl;
    rewrite ?lookup_insert_eq, ?Hcached, ?Hnone; done.
Qed.

(** X5. No resolver of the location map replaces what is cached: an entry
    of the cache other than [None] is the same after the call. *)
Theorem cached_entry_is_kept location function req name field self key o :
  asyncparser._get_handler location = Some function ->
  _cache self !! key = Some o ->
  is_None o = false ->
  _cache (function req name field self).2 !! key = Some o.
Proof.
  intros Hhandler Hkey Hnone.
  apply get_handler_Some in Hhandler
    as [[_ ->]|[[_ ->]|[[_ ->]|[[_ ->]|[[_ ->]|[[_ ->]|[[_ ->]|[_ ->]]]]]]]];
    try done.
  - (* parse_json *)
    destruct (negb (bool_decide (body req = [])) && is_json_request req)
      eqn:Hgate.
    + rewrite (parse_json_eq _ _ _ _ Hgate). simpl.
      destruct (is_None (default (Plain PyNone) (_cache self !! "json")))
        eqn:Hcached; [|done].
      assert (key <> "json") as Hne.
      { intros ->. rewrite Hkey in Hcached. simpl in Hcached. congruence. }
      destruct (json req) as [v|]; simpl; [|done].
      by rewrite lookup_insert_ne.
    + by rewrite (parse_json_skipped _ _ _ _ Hgate).
  - (* parse_form *)
    rewrite parse_form_eq.
    assert (forall post,
              _cache self !! "post" = post ->
              is_None (default (Plain PyNone) post) = true ->
              <["post" := MultiDict (form req)]> (_cache self) !! key = Some o)
      as Hfresh.
    { intros post Hpost Hcached. rewrite lookup_insert_ne; [done|].
      intros <-. rewrite Hkey in Hpost. subst post. simpl in Hcached.
      congruence. }
    destruct (_cache self !! "post") as [post|] eqn:Hpost;
      [destruct (is_None post) eqn:Hcached|]; simpl; eauto.
Qed.

Lemma cached_entry_is_kept_witness :
  _cache
    (parse_form (with_form []) "name" a_string
       (parse_form (with_form [("name", PyStr "Ann")]) "name" a_string
          parser).2).2
  !! "post"
  = Some (MultiDict [("name", PyStr "Ann")]).
Proof.
  apply (cached_entry_is_kept "form" parse_form (with_form []) "name" a_string
           (parse_form (with_form [("name", PyStr "Ann")]) "name" a_string
              parser).2
           "post" (MultiDict [("name", PyStr "Ann")])).
  - reflexivity.
  - reflexivity.
  - reflexivity.
Defined.

(** X6. The two body resolvers keep out of each other's way, whatever the
    parser state: [parse_form] leaves the "json" entry alone and awaits
    neither the body nor the document; [parse_json] leaves the "post" entry
    alone and never awaits the form. *)
Theorem form_and_json_do_not_interfere req name field self :
  (_cache (parse_form req name field self).2 !! "json" = _cache self !! "json"
   /\ times AwaitBody (parse_form req name field self).2 = times AwaitBody self
   /\ times AwaitJson (parse_form req name field self).2 = times AwaitJson self)
  /\
  (_cache (parse_json req name field self).2 !! "post" = _cache self !! "post"
   /\ times AwaitForm (parse_json req name field self).2 = times AwaitForm self).
Proof.
  split.
  - rewrite parse_form_eq.
    destruct (_cache self !! "post") as [post|]; [destruct (is_None post)|];
      simpl; by rewrite ?lookup_insert_ne.
  - destruct (negb (bool_decide (body req = [])) && is_json_request req)
      eqn:Hgate.
    + rewrite (parse_json_eq _ _ _ _ Hgate). simpl.
      destruct (is_None _); [|done].
      destruct (json req) as [v|]; simpl; [|done].
      by rewrite lookup_insert_ne.
    + by rewrite (parse_json_skipped _ _ _ _ Hgate).
Qed.

(** X7. Every call of [parse_json] awaits the raw body once, cached
    document or not.  It awaits the document once when the body is not
    empty, the mimetype is a JSON mimetype and the cache has no document
    other than [None], and not at all otherwise. *)
Theorem json_field_awaits_the_body req name field self :
  times AwaitBody (parse_json req name field self).2 = S (times AwaitBody self)
  /\ times AwaitJson (parse_json req name field self).2
     = if negb (bool_decide (body req = [])) && is_json_request req
          && is_None (default (Plain PyNone) (_cache self !! "json"))
       then S (times AwaitJson self)
       else times AwaitJson self.
Proof.
  destruct (negb (bool_decide (body req = [])) && is_json_request req)
    eqn:Hgate.
  - rewrite (parse_json_eq _ _ _ _ Hgate). simpl.
    destruct (is_None _); [|done].
    by destruct (json req) as [v|].
  - by rewrite (parse_json_skipped _ _ _ _ Hgate).
Qed.

End through_the_cache.

(** ** Dispatch and answers *)

Section dispatch.
Import core quart quartparser.

Implicit Types (req : request) (name : string) (field : field)
  (self : QuartParser).

(** X8. The parser resolves exactly the locations of the base parser and
    [view_args]: for these, and for no other, the location map names a
    method the class defines. *)
Theorem resolved_locations location :
  is_Some (quartparser.__location_map__ !! location ≫= getattr)
  <-> location = "view_args" \/ is_Some (core.__location_map__ !! location).
Proof.
  split.
  - intros [function Hhandler]. fold (asyncparser._get_handler location) in Hhandler.
    apply get_handler_Some in Hhandler
      as [[-> _]|[[-> _]|[[-> _]|[[-> _]|[[-> _]|[[-> _]|[[-> _]|[-> _]]]]]]]];
      (by left) || (right; by eexists).
  - intros [->|[method Hbase]]; [by eexists|].
    unfold core.__location_map__ in Hbase. simpl in Hbase.
    repeat (apply lookup_insert_Some in Hbase as [[<- <-]|[_ Hbase]];
            [by eexists|]).
    by rewrite lookup_empty in Hbase.
Qed.

(** A resolver that raises is the JSON resolver, and what it raises is the
    [BadRequest] of a body that does not decode. *)
Lemma handler_raises location function req name field self e :
  asyncparser._get_handler location = Some function ->
  (function req name field self).1 = Raise e ->
  location = "json" /\ json req = Undecodable /\ e = BadRequest.
Proof.
  intros Hhandler.
  apply get_handler_Some in Hhandler
    as [[-> ->]|[[-> ->]|[[-> ->]|[[-> ->]|[[-> ->]|[[-> ->]|[[-> ->]|[-> ->]]]]]]]];
    try discriminate.
  - destruct (negb (bool_decide (body req = [])) && is_json_request req)
      eqn:Hgate.
    + rewrite (parse_json_eq _ _ _ _ Hgate). simpl.
      destruct (is_None _); [|discriminate].
      destruct (json req) as [v|]; [discriminate|].
      simpl. by intros [= <-].
    + rewrite (parse_json_skipped _ _ _ _ Hgate). discriminate.
  - rewrite parse_form_eq.
    destruct (_cache self !! "post") as [post|]; [destruct (is_None post)|];
      discriminate.
Qed.

(** X10. When the JSON body is an array, the JSON resolver hands the whole
    array to a [Nested] field with [many], whatever the name asked for,
    and answers [missing] for every other field. *)
Theorem json_array_goes_to_a_many_nested_field req name field self l :
  parsing req self ->
  body req <> [] ->
  is_json_request req = true ->
  json req = Decoded (PyList l) ->
  (parse_json req name field self).1
  = Return (if nested_many field then Found (PyList l) else missing).
Proof.
  intros Hparsing Hbody Hmime Hv.
  rewrite (parse_json_decoded _ _ _ _ _ Hparsing Hbody Hmime Hv).
  unfold get_value. simpl. by destruct (nested_many field).
Qed.

Lemma json_array_goes_to_a_many_nested_field_witness :
  (parse_json
     (with_body "application/json" "[1]" (Decoded (PyList [PyInt 1])))
     "name" a_string parser).1
  = Return (if nested_many a_string then Found (PyList [PyInt 1]) else missing).
Proof.
  apply (json_array_goes_to_a_many_nested_field
           (with_body "application/json" "[1]" (Decoded (PyList [PyInt 1])))
           "name" a_string parser [PyInt 1]).
  - apply parsing_cleared. reflexivity.
  - discriminate.
  - reflexivity.
  - reflexivity.
Defined.

Lemma get_value_present data name field allow_many_nested v :
  get data name = Some v ->
  is_multiple field = false ->
  (allow_many_nested = true -> nested_many field = true ->
   collection data = None) ->
  get_value data name field allow_many_nested = Found v.
Proof.
  intros Hget Hsingle Hnested. unfold get_value.
  assert (has_get data = true) as Hhas.
  { destruct data as [[]| | |]; try done; discriminate. }
  destruct allow_many_nested, (nested_many field); simpl;
    try rewrite Hnested by done; by rewrite Hhas, Hget, Hsingle.
Qed.

(** X11. While a request is parsed, a resolver asked for a name that its
    location holds returns the value found there, for a field that takes a
    single value and every location but the files; for the JSON body,
    provided the body is not empty, the mimetype is a JSON mimetype and
    the field is not a many-nested field facing an array.  The files
    resolver reads [req.files] without awaiting it and returns [missing]
    for a file that is there. *)
Theorem present_value_is_found location function req name field self data v :
  asyncparser._get_handler location = Some function ->
  parsing req self ->
  located location req = Some data ->
  get data name = Some v ->
  is_multiple field = false ->
  (location = "json" ->
   body req <> [] /\ is_json_request req = true /\
   (nested_many field = true -> collection data = None)) ->
  (function req name field self).1
  = Return (if String.eqb location "files" then missing else Found v).
Proof.
  intros Hhandler Hparsing Hdata Hget Hsingle Hjson.
  apply get_handler_Some in Hhandler
    as [[-> ->]|[[-> ->]|[[-> ->]|[[-> ->]|[[-> ->]|[[-> ->]|[[-> ->]|[-> ->]]]]]]]];
    cbv [located String.eqb Ascii.eqb Bool.eqb] in Hdata |- *.
  - injection Hdata as <-. unfold parse_view_args, ret. simpl.
    by rewrite (get_value_present _ _ _ _ v).
  - destruct (Hjson eq_refl) as (Hbody & Hmime & Hnested).
    destruct (json req) as [doc|] eqn:Hdoc; [|done]. injection Hdata as <-.
    rewrite (parse_json_decoded _ _ _ _ _ Hparsing Hbody Hmime Hdoc).
    by rewrite (get_value_present _ _ _ _ v).
  - injection Hdata as <-. unfold parse_querystring, ret. simpl.
    by rewrite (get_value_present _ _ _ _ v).
  - injection Hdata as <-. unfold parse_querystring, ret. simpl.
    by rewrite (get_value_present _ _ _ _ v).
  - injection Hdata as <-.
    apply parsing_cache_of in Hparsing as [Hpost _].
    rewrite parse_form_eq.
    destruct (_cache self !! "post") as [post|] eqn:Hcached; simpl.
    + rewrite (Hpost post eq_refl). simpl.
      by rewrite (get_value_present _ _ _ _ v).
    + by rewrite (get_value_present _ _ _ _ v).
  - injection Hdata as <-. unfold parse_headers, ret. simpl.
    by rewrite (get_value_present _ _ _ _ v).
  - injection Hdata as <-. unfold parse_cookies, ret. simpl.
    by rewrite (get_value_present _ _ _ _ v).
  - reflexivity.
Qed.

Lemma present_value_is_found_witness :
  (parse_view_args users_42 "id" a_string parser).1
  = Return (if String.eqb "view_args" "files" then missing
            else Found (PyStr "42")).
Proof.
  apply (present_value_is_found "view_args" parse_view_args users_42 "id"
           a_string parser (Plain (PyDict {[ "id" := PyStr "42" ]}))
           (PyStr "42")).
  - reflexivity.
  - apply parsing_cleared. reflexivity.
  - reflexivity.
  - reflexivity.
  - reflexivity.
  - discriminate.
Defined.

(** X12. Asking a resolver twice for the same name of the same request
    gives the same answer, value or exception, whatever the parser state:
    what the first call cached does not change what the second returns. *)
Theorem asking_twice_gives_the_same_answer location function req name field self :
  asyncparser._get_handler location = Some function ->
  (function req name field (function req name field self).2).1
  = (function req name field self).1.
Proof.
  intros Hhandler.
  apply get_handler_Some in Hhandler
    as [[_ ->]|[[_ ->]|[[_ ->]|[[_ ->]|[[_ ->]|[[_ ->]|[[_ ->]|[_ ->]]]]]]]];
    try reflexivity.
  - (* parse_json *)
    destruct (negb (bool_decide (body req = [])) && is_json_request req)
      eqn:Hgate.
    + rewrite !(parse_json_eq _ _ _ _ Hgate). simpl.
      destruct (is_None (default (Plain PyNone) (_cache self !! "json")))
        eqn:Hcached; simpl; [|by rewrite Hcached].
      destruct (json req) as [v|] eqn:Hv; simpl.
      * rewrite lookup_insert_eq. simpl. by destruct v.
      * by rewrite Hcached.
    + by rewrite !(parse_json_skipped _ _ _ _ Hgate).
  - (* parse_form *)
    rewrite !parse_form_eq.
    destruct (_cache self !! "post") as [post|] eqn:Hcached;
      [destruct (is_None post) eqn:Hnone|]; simpl;
      rewrite ?lookup_insert_eq, ?Hcached, ?Hnone; done.
Qed.

Lemma asking_twice_gives_the_same_answer_witness :
  (parse_json
     (with_body "application/json" "null" (Decoded PyNone)) "name" a_string
     (parse_json
        (with_body "application/json" "null" (Decoded PyNone)) "name"
        a_string parser).2).1
  = (parse_json
       (with_body "application/json" "null" (Decoded PyNone)) "name" a_string
       parser).1.
Proof.
  apply (asking_twice_gives_the_same_answer "json" parse_json
           (with_body "application/json" "null" (Decoded PyNone))
           "name" a_string parser).
  reflexivity.
Defined.

End dispatch.

(** ** The hello view *)

Section hello_view.
Import core quart quartparser.

Implicit Types (req : request) (self : QuartParser).

(** Resolving a field without a location of its own from the default
    locations: the query string first, then the form, then the JSON body. *)
Lemma parse_arg_default name field req self :
  location field = None ->
  asyncparser.parse_arg name field req asyncparser.DEFAULT_LOCATIONS self
  = match get_value (MultiDict (args req)) name field false with
    | Found v => (Return (Found v), self)
    | missing =>
        match parse_form req name field self with
        | (Return (Found v), self') => (Return (Found v), self')
        | (Return missing, self') => parse_json req name field self'
        | (Raise e, self') => (Raise e, self')
        end
    end.
Proof.
  intros Hlocation. unfold asyncparser.parse_arg. rewrite Hlocation.
  change (List.find _ asyncparser.DEFAULT_LOCATIONS) with (@None string).
  unfold asyncparser.DEFAULT_LOCATIONS, asyncparser.first_found,
    asyncparser._get_value.
  change (asyncparser._get_handler "querystring") with (Some parse_querystring).
  change (asyncparser._get_handler "form") with (Some parse_form).
  change (asyncparser._get_handler "json") with (Some parse_json).
  unfold bind, parse_querystring, ret.
  destruct (get_value (MultiDict (args req)) name field false); [|done].
  destruct (parse_form req name field self) as [[[|v]|e] self']; [|done..].
  by destruct (parse_json req name field self') as [[[|v]|e] self''].
Qed.

(** What loading the parsed arguments through [hello_args] gives. *)
Lemma load_hello_args parsed :
  asyncparser.load app.hello_args parsed
  = match parsed !! "name" with
    | Some (PyStr s) => ({[ "name" := PyStr s ]}, ∅)
    | Some PyNone => (∅, {[ "name" := PyList [PyStr "Field may not be null."] ]})
    | Some _ => (∅, {[ "name" := PyList [PyStr "Not a valid string."] ]})
    | None =>
        (∅, {[ "name" := PyList [PyStr "Missing data for required field."] ]})
    end.
Proof.
  unfold app.hello_args. simpl.
  destruct (parsed !! "name") as [[]|]; by rewrite ?insert_empty.
Qed.

(** The hello view by what resolving [name] gives. *)
Lemma route_cases req self :
  match
    (asyncparser.parse_arg "name" (fields.Str true None) req
       asyncparser.DEFAULT_LOCATIONS
       {| _cache := ∅; awaited := awaited self |}).1
  with
  | Return (Found (PyStr s)) =>
      (app.route req self).1 = app.Responded ("Hello " ++ s)
  | Return (Found _) =>
      exists data exc,
        (app.route req self).1 = app.Failed (HTTPException 422 data exc)
  | Return missing =>
      exists data exc messages,
        (app.route req self).1 = app.Failed (HTTPException 422 data exc)
        /\ data !! "messages" = Some (KwVal (PyDict messages))
        /\ is_Some (messages !! "name")
  | Raise e => (app.route req self).1 = app.Failed e
  end.
Proof.
  unfold app.route, app.use_args, asyncparser.parse, bind,
    asyncparser.clear_cache.
  unfold app.hello_args at 1. simpl asyncparser._parse_request. unfold bind.
  destruct (asyncparser.parse_arg _ _ _ _ _) as [[[|v]|e] self'];
    [| |done]; unfold ret; rewrite load_hello_args.
  - rewrite lookup_empty.
    rewrite bool_decide_eq_false_2 by apply insert_non_empty.
    rewrite handle_error_eq by done. simpl. do 3 eexists.
    split; [reflexivity|]. split; [by rewrite lookup_insert_eq|].
    by rewrite lookup_singleton_eq.
  - rewrite lookup_insert_eq.
    destruct v;
      try (rewrite bool_decide_eq_false_2 by apply insert_non_empty;
           rewrite handle_error_eq by done; simpl; eauto).
    rewrite bool_decide_eq_true_2 by done. simpl.
    unfold app.index. by rewrite lookup_singleton_eq.
Qed.

(** X13. A request whose query string holds a string under [name] is
    answered with "Hello " followed by that string, whatever its form and
    body hold and whatever state the parser is in. *)
Theorem hello_greets_the_query_name req self s :
  get (MultiDict (args req)) "name" = Some (PyStr s) ->
  (app.route req self).1 = app.Responded ("Hello " ++ s).
Proof.
  intros Hname. pose proof (route_cases req self) as Hroute.
  rewrite parse_arg_default in Hroute by done.
  assert (get_value (MultiDict (args req)) "name" (fields.Str true None) false
          = Found (PyStr s)) as Hquery.
  { unfold get_value. simpl. simpl in Hname. by rewrite Hname. }
  by rewrite Hquery in Hroute.
Qed.

Lemma hello_greets_the_query_name_witness :
  (app.route
     {| view_args := Some ∅; args := [("name", PyStr "Ann")];
        form := [("name", PyStr "Bob")]; body := [];
        json := Decoded PyNone; headers := []; cookies := ∅; files := [];
        mimetype := "" |}
     parser).1
  = app.Responded ("Hello " ++ "Ann").
Proof.
  apply (hello_greets_the_query_name
           {| view_args := Some ∅; args := [("name", PyStr "Ann")];
              form := [("name", PyStr "Bob")]; body := [];
              json := Decoded PyNone; headers := []; cookies := ∅;
              files := []; mimetype := "" |}
           parser "Ann").
  reflexivity.
Defined.

(** X14. The hello view never fails on its own: for every request and
    parser state it answers "Hello " followed by a string, or the parser
    has aborted with status 422 or 400.  When [index] runs, [args['name']]
    is there and is a string. *)
Theorem hello_answers_or_aborts req self :
  match (app.route req self).1 with
  | app.Responded body => exists s, body = "Hello " ++ s
  | app.Failed (HTTPException status_code _ _) =>
      status_code = 422 \/ status_code = 400
  | _ => False
  end.
Proof.
  pose proof (route_cases req self) as Hroute.
  destruct (asyncparser.parse_arg _ _ _ _ _) as [[[|v]|e] self'] eqn:Hparsed;
    simpl in Hroute.
  - destruct Hroute as (data & exc & messages & -> & _). by left.
  - destruct v; try (destruct Hroute as (data & exc & ->); by left).
    rewrite Hroute. eauto.
  - rewrite Hroute.
    rewrite parse_arg_default in Hparsed by done.
    destruct (get_value (MultiDict (args req)) _ _ _); [|discriminate].
    destruct (parse_form req _ _ _) as [[[|v]|e'] self''] eqn:Hform;
      [|discriminate|].
    + destruct (handler_raises "json" parse_json req "name"
                  (fields.Str true None) self'' e eq_refl)
        as (_ & _ & ->); [by rewrite Hparsed|by right].
    + destruct (handler_raises "form" parse_form req "name"
                  (fields.Str true None)
                  {| _cache := ∅; awaited := awaited self |} e' eq_refl)
        as [Hlocation _]; [by rewrite Hform|discriminate].
Qed.

(** X15. A request that holds no [name] in its query string, in its form
    or in its JSON body (the body is empty, or is not JSON, or decodes to a
    document without [name]) is aborted with status 422, and the messages
    of the abort have an entry for [name]. *)
Theorem hello_without_a_name_aborts_422 req self :
  get (MultiDict (args req)) "name" = None ->
  get (MultiDict (form req)) "name" = None ->
  (body req = [] \/ is_json_request req = false \/
   exists v, json req = Decoded v /\ get (Plain v) "name" = None) ->
  exists data exc messages,
    (app.route req self).1 = app.Failed (HTTPException 422 data exc)
    /\ data !! "messages" = Some (KwVal (PyDict messages))
    /\ is_Some (messages !! "name").
Proof.
  intros Hquery Hform Hjson.
  pose proof (route_cases req self) as Hroute.
  rewrite parse_arg_default in Hroute by done.
  rewrite (get_value_absent _ _ _ _ Hquery) in Hroute by discriminate.
  rewrite parse_form_eq in Hroute. simpl in Hroute.
  rewrite lookup_empty in Hroute.
  rewrite (get_value_absent _ _ _ _ Hform) in Hroute by discriminate.
  destruct (negb (bool_decide (body req = [])) && is_json_request req)
    eqn:Hgate.
  - rewrite (parse_json_eq _ _ _ _ Hgate) in Hroute. simpl in Hroute.
    rewrite lookup_insert_ne, lookup_empty in Hroute by done.
    simpl in Hroute.
    apply andb_true_iff in Hgate as [Hbody Hmime].
    apply negb_true_iff, bool_decide_eq_false in Hbody.
    destruct Hjson as [?|[?|(v & Hv & Hget)]]; [done|congruence|].
    rewrite Hv in Hroute. simpl in Hroute.
    by rewrite (get_value_absent _ _ _ _ Hget) in Hroute by discriminate.
  - by rewrite (parse_json_skipped _ _ _ _ Hgate) in Hroute.
Qed.

Lemma hello_without_a_name_aborts_422_witness :
  exists data exc messages,
    (app.route no_content parser).1
    = app.Failed (HTTPException 422 data exc)
    /\ data !! "messages" = Some (KwVal (PyDict messages))
    /\ is_Some (messages !! "name").
Proof.
  apply (hello_without_a_name_aborts_422 no_content parser).
  - reflexivity.
  - reflexivity.
  - left. reflexivity.
Defined.

End hello_view.
